(** * FlexiDraw Review Service: a shallow embedding of [review_service/main.py]

    The service is one module: three module-level bindings computed at import
    time ([MODEL], [OPENAI_API_KEY], [client]), two probes ([ping],
    [healthz]), the image normaliser [ensure_png] and the [/review] handler.

    What the module calls but does not define is kept abstract:
    - Pillow ([Image.open], [Image.convert], [Image.save]) is the class [PIL];
    - the OpenAI SDK is a constructor that may raise and a client record with
      the method [chat.completions.create];
    - the upload is a record whose [read] either gives bytes or raises.

    A Python exception in flight is a value of [Exception]: its class name and
    [str(e)].  The handler awaits, so what it sees raised can be of a class
    that derives from [BaseException] only (task cancellation above all);
    [isinstance_Exception] tells which classes an [except Exception] clause
    catches.  Pillow works on bytes in memory and raises instances of
    [Exception] only, so the clause inside [ensure_png] catches all it raises.

    A Python [str] is a [string]; characters outside ASCII are held as their
    UTF-8 code units, and a lone surrogate, which a [str] can hold although
    UTF-8 cannot encode it, as the three code units [ED A0..BF 80..BF] of its
    generalised form.  [bytes] is [list byte]. *)

From Stdlib Require Import NArith ZArith QArith Ascii String List Lia.
From Stdlib.Strings Require Import Byte.
From stdpp Require Import base option list strings gmap.

Local Open Scope string_scope.
Local Open Scope Z_scope.

(** ** Python values *)

Definition bytes := list byte.

(** [raise cls(msg)]: the class name and [str(e)]. *)
Record Exception := mkException { exc_class : string; exc_str : string }.

Definition RuntimeError (msg : string) : Exception := mkException "RuntimeError" msg.

(** The built-in classes that derive from [BaseException] and not from
    [Exception]. *)
Definition base_only_classes : list string :=
  ["BaseException"; "KeyboardInterrupt"; "SystemExit"; "GeneratorExit"; "CancelledError"].

(** [isinstance(e, Exception)]: what [except Exception] tests. *)
Definition isinstance_Exception (e : Exception) : bool :=
  negb (existsb (String.eqb (exc_class e)) base_only_classes).

(** The result of evaluating an expression: a value, or an exception in flight. *)
Inductive outcome (A : Type) : Type :=
| Ret (a : A)
| Raise (e : Exception).
Arguments Ret {A} a.
Arguments Raise {A} e.

#[export] Instance outcome_ret : MRet outcome := fun A a => Ret a.
#[export] Instance outcome_bind : MBind outcome := fun A B f m =>
  match m with
  | Ret a => f a
  | Raise e => Raise e
  end.

(** [try: body / except Exception as e: handler(e)] on pure code. *)
Definition try_except {A} (body : outcome A) (handler : Exception -> outcome A) : outcome A :=
  match body with
  | Ret a => Ret a
  | Raise e => handler e
  end.

(** Truthiness of [str], [Optional[str]] and [bytes] ([bool(x)], [if x], [not x]). *)
Definition truthy_str (s : string) : bool :=
  match s with
  | EmptyString => false
  | String _ _ => true
  end.

Definition truthy_opt_str (o : option string) : bool :=
  match o with
  | None => false
  | Some s => truthy_str s
  end.

Definition truthy_bytes (b : bytes) : bool :=
  match b with
  | [] => false
  | _ :: _ => true
  end.

(** JSON values the handlers put into their response dictionaries. *)
Inductive JSON : Type :=
| JBool (b : bool)
| JStr (s : string).

(** ** [str.strip()] *)

(** [str.isspace()] on a single ASCII character. *)
Definition isspace (c : ascii) : bool :=
  let n := N_of_ascii c in
  ((9 <=? n) && (n <=? 13) || (28 <=? n) && (n <=? 32))%N.

Fixpoint lstrip (s : string) : string :=
  match s with
  | EmptyString => EmptyString
  | String c r => if isspace c then lstrip r else s
  end.

Fixpoint rstrip (s : string) : string :=
  match s with
  | EmptyString => EmptyString
  | String c r =>
      match rstrip r with
      | EmptyString => if isspace c then EmptyString else String c EmptyString
      | r' => String c r'
      end
  end.

Definition strip (s : string) : string := rstrip (lstrip s).

(** ** [base64.b64encode] (RFC 4648, standard alphabet, [=] padding) *)

Definition b64_alphabet : string :=
  "ABCDEFGHIJKLMNOPQRSTUVWXYZabcdefghijklmnopqrstuvwxyz0123456789+/".

Definition b64_char (n : N) : ascii :=
  match String.get (N.to_nat n) b64_alphabet with
  | Some c => c
  | None => "="%char
  end.

(** The [k]-th 6-bit group, counted from the right, of a 24-bit group. *)
Definition sextet (n : N) (k : N) : ascii :=
  b64_char ((n / 64 ^ k) mod 64)%N.

(** Three input bytes form a 24-bit group, sent as four characters; a final
    group of one or two bytes is padded with zero bits and [=]. *)
Fixpoint b64encode (data : bytes) : string :=
  match data with
  | [] => EmptyString
  | [a] =>
      let n := (Byte.to_N a * 65536)%N in
      String (sextet n 3) (String (sextet n 2) "==")
  | [a; b] =>
      let n := (Byte.to_N a * 65536 + Byte.to_N b * 256)%N in
      String (sextet n 3) (String (sextet n 2) (String (sextet n 1) "="))
  | a :: b :: c :: rest =>
      let n := (Byte.to_N a * 65536 + Byte.to_N b * 256 + Byte.to_N c)%N in
      String (sextet n 3) (String (sextet n 2) (String (sextet n 1) (String (sextet n 0)
        (b64encode rest))))
  end.

(** ** The external model service (OpenAI SDK) *)

(** One segment of a multimodal message:
    [{"type": "text", "text": t}] or
    [{"type": "image_url", "image_url": {"url": u}}]. *)
Inductive ContentPart : Type :=
| TextPart (text : string)
| ImageUrlPart (url : string).

(** [{"role": r, "content": parts}] *)
Record ChatMessage := mkChatMessage {
  role : string;
  content : list ContentPart
}.

(** The keyword arguments of [client.chat.completions.create]. *)
Record ChatRequest := mkChatRequest {
  model : string;
  messages : list ChatMessage;
  temperature : Q
}.

(** The reply: [resp.choices[i].message.content], an [Optional[str]]; the
    handler also tests [message] itself for truthiness, so it is optional. *)
Record ChatCompletionMessage := mkChatCompletionMessage {
  message_content : option string
}.

Record Choice := mkChoice {
  message : option ChatCompletionMessage
}.

Record ChatCompletion := mkChatCompletion {
  choices : list Choice
}.

(** An [OpenAI] instance, as far as the handler uses it. *)
Record OpenAI := mkOpenAI {
  chat_completions_create : ChatRequest -> outcome ChatCompletion
}.

(** [fastapi.UploadFile]: [await image.read()] gives the whole body or raises. *)
Record UploadFile := mkUploadFile {
  read : outcome bytes
}.

(** ** Pillow *)

(** [Image.open(io.BytesIO(data))], [im.convert(mode)] and
    [im.save(out, format=fmt); out.getvalue()], with the two attributes of an
    image a caller can observe ([im.format], [im.mode]). *)
Class PIL := {
  Image : Type;
  Image_open : bytes -> outcome Image;
  Image_convert : Image -> string -> outcome Image;
  Image_save : Image -> string -> outcome bytes;
  Image_format : Image -> option string;
  Image_mode : Image -> string
}.

(** ** Effects of a request *)

(** What a handler does to the outside, in order. *)
Inductive Event : Type :=
| EvStderr (line : string)
| EvRead
| EvCreate (req : ChatRequest)
| EvTraceback (e : Exception).

(** A handler run: its outcome and the events it performed. *)
Definition M (A : Type) : Type := (outcome A * list Event)%type.

#[export] Instance M_ret : MRet M := fun A a => (Ret a, []).
#[export] Instance M_bind : MBind M := fun A B f m =>
  match m with
  | (Ret a, t) => let '(r, t') := f a in (r, (t ++ t')%list)
  | (Raise e, t) => (Raise e, t)
  end.

Definition perform {A} (ev : Event) (r : outcome A) : M A := (r, [ev]).

Definition pure {A} (r : outcome A) : M A := (r, []).

(** [try: body / except Exception as e: handler(e)] on effectful code. *)
Definition try_except_M {A} (body : M A) (handler : Exception -> M A) : M A :=
  match body with
  | (Ret a, t) => (Ret a, t)
  | (Raise e, t) =>
      if isinstance_Exception e
      then let '(r, t') := handler e in (r, (t ++ t')%list)
      else (Raise e, t)
  end.

(** What a path operation returns: a [JSONResponse] with its status code, or
    a plain dict, which FastAPI sends as JSON with status 200. *)
Inductive Response : Type :=
| JSONResponse (status_code : Z) (body : gmap string JSON)
| Dict (body : gmap string JSON).

Definition http_status (r : Response) : Z :=
  match r with
  | JSONResponse status_code _ => status_code
  | Dict _ => 200
  end.

Definition http_body (r : Response) : gmap string JSON :=
  match r with
  | JSONResponse _ body => body
  | Dict body => body
  end.

(** A lone surrogate in a [str]: the code unit [ED] followed by one in
    [A0..BF]. *)
Fixpoint has_surrogate (s : string) : bool :=
  match s with
  | EmptyString => false
  | String a r =>
      match r with
      | EmptyString => false
      | String b _ =>
          ((N_of_ascii a =? 237) && (160 <=? N_of_ascii b) && (N_of_ascii b <=? 191))%N
          || has_surrogate r
      end
  end.

(** [json.dumps(...).encode("utf-8")] succeeds on this key and value. *)
Definition renders (item : string * JSON) : bool :=
  negb (has_surrogate item.1) &&
  match item.2 with
  | JBool _ => true
  | JStr s => negb (has_surrogate s)
  end.

(** [JSONResponse(status_code=..., content=...)]: Starlette renders the body
    when the response is constructed, as UTF-8 JSON, and that raises
    [UnicodeEncodeError] when a string holds a lone surrogate.  (The real
    message also names the character and its position.) *)
Definition JSONResponse_init (status_code : Z) (body : gmap string JSON)
  : outcome Response :=
  if forallb renders (map_to_list body)
  then Ret (JSONResponse status_code body)
  else Raise (mkException "UnicodeEncodeError"
                "'utf-8' codec can't encode character: surrogates not allowed").

(** ** Module level: lines 19-28 *)

(** The module's globals once it is imported. *)
Record Globals := mkGlobals {
  MODEL : string;
  OPENAI_API_KEY : option string;
  client : option OpenAI
}.

(** [os.getenv(key, default)] and [os.getenv(key)]. *)
Definition getenv_default (environ : gmap string string) (key default : string) : string :=
  match environ !! key with
  | Some v => v
  | None => default
  end.

Definition getenv (environ : gmap string string) (key : string) : option string :=
  environ !! key.

(** [OpenAI(api_key=OPENAI_API_KEY)] guarded by the credential test. *)
Definition make_client (new_OpenAI : string -> outcome OpenAI) (key : option string)
  : outcome OpenAI :=
  if negb (truthy_opt_str key)
  then Raise (RuntimeError "OPENAI_API_KEY environment variable is not set.")
  else match key with
       | Some k => new_OpenAI k
       | None => Raise (RuntimeError "OPENAI_API_KEY environment variable is not set.")
       end.

(** Importing the module: the environment (after [load_dotenv]) and the SDK
    constructor give the globals and what was printed to stderr. *)
Definition startup (environ : gmap string string) (new_OpenAI : string -> outcome OpenAI)
  : Globals * list Event :=
  let MODEL := getenv_default environ "OPENAI_MODEL" "gpt-4o-mini" in
  let OPENAI_API_KEY := getenv environ "OPENAI_API_KEY" in
  match make_client new_OpenAI OPENAI_API_KEY with
  | Ret c => (mkGlobals MODEL OPENAI_API_KEY (Some c), [])
  | Raise e =>
      (mkGlobals MODEL OPENAI_API_KEY None,
       [EvStderr ("[startup] OpenAI client not initialized: " +:+ exc_str e)])
  end.

(** ** The probes: lines 30-37 *)

Definition ping (g : Globals) : Response :=
  Dict (<["ok" := JBool true]>
        (<["model" := JStr (MODEL g)]>
        (<["has_api_key" := JBool (truthy_opt_str (OPENAI_API_KEY g))]> ∅))).

Definition healthz : Response :=
  Dict (<["ok" := JBool true]> ∅).

(** ** [ensure_png]: lines 39-46 *)

Definition ensure_png `{PIL} (data : bytes) : outcome bytes :=
  try_except
    (im ← Image_open data;
     rgba ← Image_convert im "RGBA";
     out ← Image_save rgba "PNG";
     mret out)
    (fun _ => mret data).

(** ** [/review]: lines 48-95 *)

Definition nl : string := String "010" EmptyString.
Definition dq : string := String "034" EmptyString.

(** The fixed instruction of the prompt (three adjacent literals, line 67-69). *)
Definition instruction_text : string :=
  "You are an art critic. Rate this drawing from 1–10 and provide " ++
  "three strengths and three suggestions for improvement. " ++
  "Be concise and kind. Return HTML with headings and bullet lists.".

(** The opening tag of the container, line 87. *)
Definition div_open : string :=
  "<div style=" ++ dq ++
  "font-family:-apple-system,Segoe UI,Roboto,Helvetica,Arial,sans-serif;line-height:1.45;font-size:14px;"
  ++ dq ++ ">".

Definition div_close : string := "</div>".

(** The f-string of lines 86-90 before [.strip()]: the literal keeps the
    newline after the opening quotes and the indentation of every line. *)
Definition wrap_template (html : string) : string :=
  nl ++ "        " ++ div_open ++
  nl ++ "          " ++ html ++
  nl ++ "        " ++ div_close ++
  nl ++ "        ".

(** Lines 79-81: [html] stays [None] unless the reply has a first choice with
    a truthy message and truthy content. *)
Definition extract_html (resp : ChatCompletion) : option string :=
  match choices resp with
  | [] => None
  | ch :: _ =>
      match message ch with
      | None => None
      | Some m => if truthy_opt_str (message_content m) then message_content m else None
      end
  end.

Definition error_body (msg : string) : gmap string JSON :=
  <["error" := JStr msg]> ∅.

(** The keyword arguments of the call of lines 73-77. *)
Definition create_kwargs (MODEL : string) (user_content : list ContentPart) : ChatRequest :=
  mkChatRequest MODEL [mkChatMessage "user" user_content] (1 # 2).

(** The body of the [try] block, lines 51-91. *)
Definition review_body `{PIL} (g : Globals) (image : UploadFile) : M Response :=
  match client g with
  | None =>
      mret (JSONResponse 500
              (error_body "OpenAI client not initialized. Check OPENAI_API_KEY."))
  | Some c =>
      blob ← perform EvRead (read image);
      if negb (truthy_bytes blob)
      then mret (JSONResponse 400 (error_body "Empty image upload."))
      else
        png ← pure (ensure_png blob);
        let b64 := b64encode png in
        let data_url := "data:image/png;base64," ++ b64 in
        let user_content := [TextPart instruction_text; ImageUrlPart data_url] in
        let req := create_kwargs (MODEL g) user_content in
        resp ← perform (EvCreate req) (chat_completions_create c req);
        match extract_html resp with
        | Some html =>
            if negb (truthy_str html)
            then mret (JSONResponse 502 (error_body "Model returned no content."))
            else
              let wrapped := strip (wrap_template html) in
              mret (Dict (<["html" := JStr wrapped]> ∅))
        | None => mret (JSONResponse 502 (error_body "Model returned no content."))
        end
  end.

(** The handler: the [try] block under its [except Exception as e], lines
    93-95.  The bodies of the responses built inside the [try] block are
    ASCII literals, which always render; the body built here holds [str(e)]. *)
Definition review `{PIL} (g : Globals) (image : UploadFile) : M Response :=
  try_except_M (review_body g image)
    (fun e =>
       perform (EvTraceback e) (Ret tt);;
       pure (JSONResponse_init 500 (error_body (exc_str e)))).


(** ** Vocabulary of the statements *)

(** [s in t] on Python strings. *)
Definition substring (s t : string) : Prop :=
  exists pre post, t = pre ++ s ++ post.

(** What [strip] leaves of the f-string: the container around the reply. *)
Definition container (html : string) : string :=
  div_open ++ nl ++ "          " ++ html ++ nl ++ "        " ++ div_close.

(** The decoder of RFC 4648, the inverse that makes a string "the base64
    encoding of" some bytes. *)
Definition b64_index (c : ascii) : option N :=
  let n := N_of_ascii c in
  if ((65 <=? n) && (n <=? 90))%N then Some (n - 65)%N
  else if ((97 <=? n) && (n <=? 122))%N then Some (n - 71)%N
  else if ((48 <=? n) && (n <=? 57))%N then Some (n + 4)%N
  else if (n =? 43)%N then Some 62%N
  else if (n =? 47)%N then Some 63%N
  else None.

Definition octet (n : N) (k : N) : byte :=
  match Byte.of_N ((n / 256 ^ k) mod 256)%N with
  | Some b => b
  | None => x00
  end.

Definition group24 (i0 i1 i2 i3 : N) : N :=
  (i0 * 262144 + i1 * 4096 + i2 * 64 + i3)%N.

Definition is_pad (c : ascii) : bool := Ascii.eqb c "=".

Definition is_end (s : string) : bool := negb (truthy_str s).

Fixpoint b64decode (s : string) : option bytes :=
  match s with
  | EmptyString => Some []
  | String c0 (String c1 (String c2 (String c3 rest))) =>
      match b64_index c0, b64_index c1, b64_index c2, b64_index c3 with
      | Some i0, Some i1, Some i2, Some i3 =>
          let n := group24 i0 i1 i2 i3 in
          match b64decode rest with
          | Some tl => Some (octet n 2 :: octet n 1 :: octet n 0 :: tl)
          | None => None
          end
      | Some i0, Some i1, Some i2, None =>
          let n := group24 i0 i1 i2 0 in
          if is_pad c3 && is_end rest then Some [octet n 2; octet n 1] else None
      | Some i0, Some i1, None, None =>
          let n := group24 i0 i1 0 0 in
          if is_pad c2 && is_pad c3 && is_end rest then Some [octet n 2] else None
      | _, _, _, _ => None
      end
  | _ => None
  end.

(** Pillow's side of normalisation, as far as the statements rely on it. *)
Section PillowContract.
Context `{PIL}.

(** Pillow identifies [data] as [fmt] and can decode its pixels to RGBA. *)
Definition decodable_as (fmt : string) (data : bytes) : Prop :=
  exists im rgba,
    Image_open data = Ret im /\
    Image_format im = Some fmt /\
    Image_convert im "RGBA" = Ret rgba.

(** ... and the image it identifies already has the mode [mode]. *)
Definition decodable_as_mode (fmt mode : string) (data : bytes) : Prop :=
  exists im rgba,
    Image_open data = Ret im /\
    Image_format im = Some fmt /\
    Image_mode im = mode /\
    Image_convert im "RGBA" = Ret rgba.

(** Some step of the pipeline of [ensure_png] raises on [data]. *)
Definition pipeline_raises (data : bytes) : Prop :=
  (exists e, Image_open data = Raise e) \/
  (exists im e, Image_open data = Ret im /\ Image_convert im "RGBA" = Raise e) \/
  (exists im rgba e, Image_open data = Ret im /\ Image_convert im "RGBA" = Ret rgba /\
                     Image_save rgba "PNG" = Raise e).

(** [convert] returns an image of the mode asked for; the PNG writer takes
    RGBA images, and what it writes is read back as an RGBA PNG. *)
Class PNGCodec : Prop := {
  convert_mode : forall im mode im',
    Image_convert im mode = Ret im' -> Image_mode im' = mode;
  save_rgba_png : forall im,
    Image_mode im = "RGBA" ->
    exists out, Image_save im "PNG" = Ret out /\ decodable_as_mode "PNG" "RGBA" out
}.
End PillowContract.

(** The request of lines 65-77 for the normalised bytes [png]. *)
Definition the_request (g : Globals) (png : bytes) : ChatRequest :=
  create_kwargs (MODEL g)
    [TextPart instruction_text;
     ImageUrlPart ("data:image/png;base64," ++ b64encode png)].

(** The reply has a first candidate whose message content is the non-empty
    string [html]. *)
Definition has_content (resp : ChatCompletion) (html : string) : Prop :=
  exists ch rest m,
    choices resp = ch :: rest /\ message ch = Some m /\
    message_content m = Some html /\ html <> EmptyString.

(** The handler got as far as the collaborator call: there is a client [c],
    the body read is not empty and [ensure_png] made [png] of it. *)
Definition reaches_call `{PIL} (g : Globals) (image : UploadFile) (c : OpenAI)
    (png : bytes) : Prop :=
  exists blob,
    client g = Some c /\ read image = Ret blob /\ blob <> [] /\
    ensure_png blob = Ret png.

(** The ways through the handler, each with its outcome and its events:
    six end in a response, four in an exception that leaves the handler. *)
Inductive Run `{PIL} (g : Globals) (image : UploadFile)
  : outcome Response * list Event -> Prop :=
| RunNoClient :
    client g = None ->
    Run g image
      (Ret (JSONResponse 500
              (error_body "OpenAI client not initialized. Check OPENAI_API_KEY.")), [])
| RunReadRaises c e :
    client g = Some c -> read image = Raise e ->
    isinstance_Exception e = true -> has_surrogate (exc_str e) = false ->
    Run g image
      (Ret (JSONResponse 500 (error_body (exc_str e))), [EvRead; EvTraceback e])
| RunEmpty c :
    client g = Some c -> read image = Ret [] ->
    Run g image (Ret (JSONResponse 400 (error_body "Empty image upload.")), [EvRead])
| RunCallRaises c png e :
    reaches_call g image c png ->
    chat_completions_create c (the_request g png) = Raise e ->
    isinstance_Exception e = true -> has_surrogate (exc_str e) = false ->
    Run g image
      (Ret (JSONResponse 500 (error_body (exc_str e))),
       [EvRead; EvCreate (the_request g png); EvTraceback e])
| RunNoContent c png resp :
    reaches_call g image c png ->
    chat_completions_create c (the_request g png) = Ret resp ->
    (forall html, ~ has_content resp html) ->
    Run g image
      (Ret (JSONResponse 502 (error_body "Model returned no content.")),
       [EvRead; EvCreate (the_request g png)])
| RunSuccess c png resp html :
    reaches_call g image c png ->
    chat_completions_create c (the_request g png) = Ret resp ->
    has_content resp html ->
    Run g image
      (Ret (Dict (<["html" := JStr (container html)]> ∅)),
       [EvRead; EvCreate (the_request g png)])
| RunReadEscapes c e :
    client g = Some c -> read image = Raise e ->
    isinstance_Exception e = false ->
    Run g image (Raise e, [EvRead])
| RunReadUnrendered c e e' :
    client g = Some c -> read image = Raise e ->
    isinstance_Exception e = true -> has_surrogate (exc_str e) = true ->
    JSONResponse_init 500 (error_body (exc_str e)) = Raise e' ->
    Run g image (Raise e', [EvRead; EvTraceback e])
| RunCallEscapes c png e :
    reaches_call g image c png ->
    chat_completions_create c (the_request g png) = Raise e ->
    isinstance_Exception e = false ->
    Run g image (Raise e, [EvRead; EvCreate (the_request g png)])
| RunCallUnrendered c png e e' :
    reaches_call g image c png ->
    chat_completions_create c (the_request g png) = Raise e ->
    isinstance_Exception e = true -> has_surrogate (exc_str e) = true ->
    JSONResponse_init 500 (error_body (exc_str e)) = Raise e' ->
    Run g image
      (Raise e', [EvRead; EvCreate (the_request g png); EvTraceback e]).

(** A symbol of base64 text: one of the 64 of the alphabet, or the pad. *)
Definition b64_symbol (c : ascii) : bool :=
  match b64_index c with
  | Some _ => true
  | None => is_pad c
  end.

Fixpoint all_chars (p : ascii -> bool) (s : string) : bool :=
  match s with
  | EmptyString => true
  | String c r => p c && all_chars p r
  end.

(** [.decode("ascii")] of line 62, on the text [b64encode] gave: it raises as
    soon as one code unit is 128 or more. *)
Definition decode_ascii (raw : string) : outcome string :=
  if all_chars (fun c => (N_of_ascii c <? 128)%N) raw
  then Ret raw
  else Raise (mkException "UnicodeDecodeError"
                "'ascii' codec can't decode byte: ordinal not in range(128)").

(** ** Concrete worlds, to run the definitions *)

(** A miniature codec.  A file is a tag byte and pixel bytes: [P] then [A]
    is an RGBA PNG, [P] then [L] a greyscale PNG, [B] an RGB BMP. *)
Record ToyImage := mkToyImage {
  toy_format : option string;
  toy_mode : string;
  toy_pixels : bytes
}.

Definition toy_open (data : bytes) : outcome ToyImage :=
  match data with
  | x50 :: x41 :: px => Ret (mkToyImage (Some "PNG") "RGBA" px)
  | x50 :: x4c :: px => Ret (mkToyImage (Some "PNG") "L" px)
  | x42 :: px => Ret (mkToyImage (Some "BMP") "RGB" px)
  | _ => Raise (mkException "UnidentifiedImageError" "cannot identify image file")
  end.

Definition toy_convert (im : ToyImage) (mode : string) : outcome ToyImage :=
  Ret (mkToyImage None mode (toy_pixels im)).

Definition toy_save (im : ToyImage) (fmt : string) : outcome bytes :=
  if String.eqb fmt "PNG" then
    if String.eqb (toy_mode im) "RGBA" then Ret (x50 :: x41 :: toy_pixels im)
    else if String.eqb (toy_mode im) "L" then Ret (x50 :: x4c :: toy_pixels im)
    else Raise (mkException "OSError" "cannot write mode as PNG")
  else Raise (mkException "KeyError" fmt).

Definition pil_toy : PIL := {|
  Image := ToyImage;
  Image_open := toy_open;
  Image_convert := toy_convert;
  Image_save := toy_save;
  Image_format := toy_format;
  Image_mode := toy_mode
|}.

(** A client that answers every request with [reply], one that always raises. *)
Definition canned_client (reply : ChatCompletion) : OpenAI :=
  mkOpenAI (fun _ => Ret reply).

Definition failing_client (e : Exception) : OpenAI :=
  mkOpenAI (fun _ => Raise e).

Definition reply_with (text : option string) : ChatCompletion :=
  mkChatCompletion [mkChoice (Some (mkChatCompletionMessage text))].

Definition sdk_ok (reply : ChatCompletion) (key : string) : outcome OpenAI :=
  Ret (canned_client reply).

Definition sdk_broken (key : string) : outcome OpenAI :=
  Raise (mkException "OpenAIError" "client construction failed").

Definition env_with_key (key : string) : gmap string string :=
  <["OPENAI_API_KEY" := key]> ∅.

(** The globals after a start-up with a credential and an SDK whose client
    answers every request with the one candidate [text]. *)
Definition globals_with_reply (text : option string) : Globals :=
  (startup (env_with_key "sk-test") (sdk_ok (reply_with text))).1.

(** A client that answers with the candidates [texts], in this order. *)
Definition client_with_choices (texts : list string) : OpenAI :=
  canned_client
    (mkChatCompletion
       (map (fun t => mkChoice (Some (mkChatCompletionMessage (Some t)))) texts)).

Definition upload (data : bytes) : UploadFile := mkUploadFile (Ret data).

Definition not_an_image : bytes := list_byte_of_string "not an image".

(** * Properties *)

(** ** Strings *)

Lemma append_cons (ch : ascii) (a b : string) : String ch a ++ b = String ch (a ++ b).
Proof. reflexivity. Qed.

Lemma append_assoc (a b c : string) : (a ++ b) ++ c = a ++ (b ++ c).
Proof.
  induction a as [|ch a IH]; [reflexivity|].
  rewrite !append_cons. now rewrite IH.
Qed.

Lemma append_empty_inv (a b : string) :
  a ++ b = EmptyString -> a = EmptyString /\ b = EmptyString.
Proof. destruct a; [auto | rewrite append_cons; discriminate]. Qed.

(** [rstrip] only looks at the end: a prefix before text that survives is kept. *)
Lemma rstrip_app_keep (a b : string) :
  rstrip b <> EmptyString -> rstrip (a ++ b) = a ++ rstrip b.
Proof.
  intros Hb. induction a as [|ch a IH]; [reflexivity|].
  rewrite !append_cons. simpl rstrip. rewrite IH.
  destruct (a ++ rstrip b) eqn:E; [|reflexivity].
  apply append_empty_inv in E. destruct E as [_ E]. contradiction.
Qed.

Lemma substring_container (html : string) : substring html (container html).
Proof.
  exists (div_open ++ nl ++ "          "), (nl ++ "        " ++ div_close).
  unfold container. now rewrite !append_assoc.
Qed.

(** [.strip()] removes exactly the first and the last line break and
    indentation of the f-string, whatever the reply is. *)
Lemma strip_wrap_template (html : string) :
  strip (wrap_template html) = container html.
Proof.
  unfold strip, wrap_template, container.
  change (lstrip (nl ++ "        " ++ div_open ++ nl ++ "          " ++ html ++
                  nl ++ "        " ++ div_close ++ nl ++ "        "))
    with (div_open ++ nl ++ "          " ++ html ++
          nl ++ "        " ++ div_close ++ nl ++ "        ").
  replace (div_open ++ nl ++ "          " ++ html ++
           nl ++ "        " ++ div_close ++ nl ++ "        ")
    with ((div_open ++ nl ++ "          " ++ html ++ nl ++ "        ") ++
          (div_close ++ nl ++ "        "))
    by now rewrite !append_assoc.
  rewrite rstrip_app_keep by (vm_compute; discriminate).
  change (rstrip (div_close ++ nl ++ "        ")) with div_close.
  now rewrite !append_assoc.
Qed.

Example strip_samples :
  strip (nl ++ "  a b  " ++ nl) = "a b" /\ strip "   " = EmptyString /\ strip "x" = "x".
Proof. repeat split; reflexivity. Qed.

(** ** Normalisation *)

Section Normalisation.
Context `{PIL}.

(** The three ways through [ensure_png]. *)
Lemma ensure_png_cases (data : bytes) :
  (pipeline_raises data /\ ensure_png data = Ret data) \/
  (exists im rgba out,
      Image_open data = Ret im /\ Image_convert im "RGBA" = Ret rgba /\
      Image_save rgba "PNG" = Ret out /\ ensure_png data = Ret out).
Proof.
  unfold ensure_png, pipeline_raises, try_except, mbind, outcome_bind, mret, outcome_ret.
  destruct (Image_open data) as [im|e] eqn:Hopen.
  - destruct (Image_convert im "RGBA") as [rgba|e] eqn:Hconv.
    + destruct (Image_save rgba "PNG") as [out|e] eqn:Hsave.
      * right. exists im, rgba, out. auto.
      * left. split; [|reflexivity]. right. right. exists im, rgba, e. auto.
    + left. split; [|reflexivity]. right. left. exists im, e. auto.
  - left. split; [|reflexivity]. left. exists e. reflexivity.
Qed.

Lemma ensure_png_total (data : bytes) : exists out, ensure_png data = Ret out.
Proof.
  destruct (ensure_png_cases data) as [[_ E]|(im & rgba & out & _ & _ & _ & E)]; eauto.
Qed.

Lemma ensure_png_returns_input (data : bytes) :
  pipeline_raises data -> ensure_png data = Ret data.
Proof.
  intros Hu. destruct (ensure_png_cases data) as [[_ E]|(im & rgba & out & Ho & Hc & Hs & E)].
  - exact E.
  - destruct Hu as [[e He]|[(im' & e & Ho' & He)|(im' & rgba' & e & Ho' & Hc' & He)]];
      congruence.
Qed.
End Normalisation.

(** ** Runs of the handler *)

Ltac run_handler :=
  unfold review, review_body, try_except_M, perform, pure,
    mbind, M_bind, mret, M_ret; simpl.

Section Handler.
Context `{PIL}.
Variables (g : Globals) (image : UploadFile).

Lemma review_body_no_client :
  client g = None ->
  review_body g image =
    (Ret (JSONResponse 500
            (error_body "OpenAI client not initialized. Check OPENAI_API_KEY.")), []).
Proof. intros Hc. unfold review_body. now rewrite Hc. Qed.

Lemma review_body_read_raises (c : OpenAI) (e : Exception) :
  client g = Some c -> read image = Raise e ->
  review_body g image = (Raise e, [EvRead]).
Proof. intros Hc Hr. run_handler. now rewrite Hc, Hr. Qed.

Lemma review_body_empty (c : OpenAI) :
  client g = Some c -> read image = Ret [] ->
  review_body g image =
    (Ret (JSONResponse 400 (error_body "Empty image upload.")), [EvRead]).
Proof. intros Hc Hr. run_handler. now rewrite Hc, Hr. Qed.

(** The request the handler sends for the normalised bytes [png]. *)
Lemma review_body_call (c : OpenAI) (blob png : bytes) :
  client g = Some c -> read image = Ret blob -> blob <> [] ->
  ensure_png blob = Ret png ->
  let req := create_kwargs (MODEL g)
               [TextPart instruction_text;
                ImageUrlPart ("data:image/png;base64," ++ b64encode png)] in
  review_body g image =
    match chat_completions_create c req with
    | Raise e => (Raise e, [EvRead; EvCreate req])
    | Ret resp =>
        (Ret (match extract_html resp with
              | Some (String a s) =>
                  Dict (<["html" := JStr (strip (wrap_template (String a s)))]> ∅)
              | _ => JSONResponse 502 (error_body "Model returned no content.")
              end),
         [EvRead; EvCreate req])
    end.
Proof.
  intros Hc Hr Hne Hpng. run_handler. rewrite Hc, Hr.
  destruct blob as [|b0 blob']; [contradiction|]. simpl. rewrite Hpng.
  destruct (chat_completions_create c _) as [resp|e]; [|reflexivity].
  destruct (extract_html resp) as [[|a s]|]; reflexivity.
Qed.
End Handler.

(** ** The [except] branch *)

Lemma JSONResponse_init_error (status_code : Z) (msg : string) :
  JSONResponse_init status_code (error_body msg) =
    if has_surrogate msg
    then Raise (mkException "UnicodeEncodeError"
                  "'utf-8' codec can't encode character: surrogates not allowed")
    else Ret (JSONResponse status_code (error_body msg)).
Proof.
  unfold JSONResponse_init, error_body.
  rewrite insert_empty, map_to_list_singleton. cbn [forallb]. unfold renders.
  cbn [fst snd]. change (has_surrogate "error") with false.
  now destruct (has_surrogate msg).
Qed.

(** What the handler makes of an exception that leaves the [try] block. *)
Lemma review_of_raise `{PIL} (g : Globals) (image : UploadFile) (e : Exception)
    (trace : list Event) :
  review_body g image = (Raise e, trace) ->
  review g image =
    if isinstance_Exception e
    then (JSONResponse_init 500 (error_body (exc_str e)), (trace ++ [EvTraceback e])%list)
    else (Raise e, trace).
Proof.
  intros Hb. unfold review, try_except_M. rewrite Hb.
  destruct (isinstance_Exception e); [|reflexivity].
  unfold mbind, M_bind, perform, pure.
  now destruct (JSONResponse_init 500 (error_body (exc_str e))).
Qed.

Lemma review_of_return `{PIL} (g : Globals) (image : UploadFile) (r : Response)
    (trace : list Event) :
  review_body g image = (Ret r, trace) -> review g image = (Ret r, trace).
Proof. intros Hb. unfold review, try_except_M. now rewrite Hb. Qed.

(** ** The contract of [/review] *)

(** C1.  For a non-empty upload, an initialised client and a reply whose
    first candidate has non-empty content, [/review] answers 200 and the
    value under [html] is that content inside the fixed container: the
    opening [div] tag with its inline style (the font stack, line-height
    1.45, font-size 14px), written out below, a line break and indentation,
    the content, a line break and indentation, the closing tag.  The content
    is therefore a substring of it. *)
Theorem review_success `{PIL} (g : Globals) (image : UploadFile) (c : OpenAI)
    (blob png : bytes) (resp : ChatCompletion) (ch : Choice) (rest : list Choice)
    (m : ChatCompletionMessage) (html : string) :
  client g = Some c ->
  read image = Ret blob -> blob <> [] ->
  ensure_png blob = Ret png ->
  chat_completions_create c
    (create_kwargs (MODEL g)
       [TextPart instruction_text;
        ImageUrlPart ("data:image/png;base64," ++ b64encode png)]) = Ret resp ->
  choices resp = ch :: rest ->
  message ch = Some m ->
  message_content m = Some html ->
  html <> EmptyString ->
  exists r trace wrapped,
    review g image = (Ret r, trace) /\
    http_status r = 200 /\
    http_body r !! "html" = Some (JStr wrapped) /\
    wrapped =
      "<div style=" ++
      String "034"
        ("font-family:-apple-system,Segoe UI,Roboto,Helvetica,Arial,sans-serif;" ++
         "line-height:1.45;" ++ "font-size:14px;" ++
         String "034"
           (">" ++ String "010"
              ("          " ++ html ++ String "010" "        </div>"))) /\
    substring html wrapped.
Proof.
  intros Hc Hr Hne Hpng Hcall Hch Hm Hcontent Hhtml.
  assert (Hx : extract_html resp = Some html).
  { unfold extract_html. rewrite Hch, Hm, Hcontent. simpl.
    destruct html; [contradiction | reflexivity]. }
  pose proof (review_body_call g image c blob png Hc Hr Hne Hpng) as Hbody.
  cbv zeta in Hbody. rewrite Hcall, Hx in Hbody.
  destruct html as [|a s]; [contradiction|].
  unfold review, try_except_M. rewrite Hbody.
  eexists _, _, _. split; [reflexivity|]. split; [reflexivity|].
  split; [apply lookup_insert_eq|]. rewrite strip_wrap_template.
  split; [reflexivity | apply substring_container].
Qed.

(** C2, as the handler has it.  With an initialised client, an upload whose
    body is empty is answered 400 with the error [Empty image upload.], and
    nothing but the read has happened. *)
Theorem review_empty_upload `{PIL} (g : Globals) (image : UploadFile) (c : OpenAI) :
  client g = Some c ->
  read image = Ret [] ->
  review g image = (Ret (JSONResponse 400 (error_body "Empty image upload.")), [EvRead]) /\
  http_status (JSONResponse 400 (error_body "Empty image upload.")) = 400.
Proof.
  intros Hc Hr. split; [|reflexivity].
  unfold review, try_except_M. now rewrite (review_body_empty g image c Hc Hr).
Qed.

(** C3.  Without a client the handler answers 500 with the error naming the
    uninitialised client, for every upload, and it has performed no effect
    at all: in particular the body was not read. *)
Theorem review_without_client `{PIL} (g : Globals) (image : UploadFile) :
  client g = None ->
  exists r trace,
    review g image = (Ret r, trace) /\
    http_status r = 500 /\
    http_body r !! "error" =
      Some (JStr "OpenAI client not initialized. Check OPENAI_API_KEY.") /\
    trace = [] /\ ~ In EvRead trace.
Proof.
  intros Hc. unfold review, try_except_M. rewrite (review_body_no_client g image Hc).
  eexists _, _. split; [reflexivity|]. split; [reflexivity|].
  split; [apply lookup_insert_eq|]. split; [reflexivity | intros []].
Qed.

(** C5.  Once the collaborator has answered, a reply with no candidate, or
    whose first candidate has no message, no content or empty content, is
    answered 502 with the error [Model returned no content.]. *)
Theorem review_no_content `{PIL} (g : Globals) (image : UploadFile) (c : OpenAI)
    (blob png : bytes) (resp : ChatCompletion) :
  client g = Some c ->
  read image = Ret blob -> blob <> [] ->
  ensure_png blob = Ret png ->
  chat_completions_create c
    (create_kwargs (MODEL g)
       [TextPart instruction_text;
        ImageUrlPart ("data:image/png;base64," ++ b64encode png)]) = Ret resp ->
  (choices resp = [] \/
   exists ch rest, choices resp = ch :: rest /\
     (message ch = None \/
      exists m, message ch = Some m /\
        (message_content m = None \/ message_content m = Some EmptyString))) ->
  exists r trace,
    review g image = (Ret r, trace) /\
    http_status r = 502 /\
    http_body r !! "error" = Some (JStr "Model returned no content.").
Proof.
  intros Hc Hr Hne Hpng Hcall Hshape.
  assert (Hx : extract_html resp = None).
  { unfold extract_html.
    destruct Hshape as [-> | (ch & rest & -> & [-> | (m & -> & [-> | ->])])];
      reflexivity. }
  pose proof (review_body_call g image c blob png Hc Hr Hne Hpng) as Hbody.
  cbv zeta in Hbody. rewrite Hcall, Hx in Hbody.
  unfold review, try_except_M. rewrite Hbody.
  eexists _, _. split; [reflexivity|]. split; [reflexivity | apply lookup_insert_eq].
Qed.

(** ** The contract of [ensure_png] *)

(** C6.  When Pillow raises on the input (it cannot identify it, cannot
    decode it, or cannot write it), [ensure_png] returns the input bytes
    themselves; and on every input it returns bytes: no exception escapes. *)
Theorem ensure_png_fallback `{PIL} :
  (forall data, pipeline_raises data -> ensure_png data = Ret data) /\
  (forall data, exists out, ensure_png data = Ret out).
Proof. split; [apply ensure_png_returns_input | apply ensure_png_total]. Qed.

(** C7.  Under Pillow's contract, a decodable PNG goes through [ensure_png]
    to a decodable PNG of mode RGBA; and feeding that result through again
    gives a decodable RGBA PNG once more. *)
Theorem ensure_png_keeps_png `{PNGCodec} (data : bytes) :
  decodable_as "PNG" data ->
  exists out out',
    ensure_png data = Ret out /\ decodable_as_mode "PNG" "RGBA" out /\
    ensure_png out = Ret out' /\ decodable_as_mode "PNG" "RGBA" out'.
Proof.
  assert (Hstep : forall d im rgba,
             Image_open d = Ret im -> Image_convert im "RGBA" = Ret rgba ->
             exists out, ensure_png d = Ret out /\ decodable_as_mode "PNG" "RGBA" out).
  { intros d im rgba Ho Hc.
    destruct (save_rgba_png rgba (convert_mode _ _ _ Hc)) as (out & Hs & Hout).
    exists out. split; [|exact Hout].
    unfold ensure_png, try_except, mbind, outcome_bind, mret, outcome_ret.
    now rewrite Ho, Hc, Hs. }
  intros (im & rgba & Ho & _ & Hc).
  destruct (Hstep data im rgba Ho Hc) as (out & Hout & Hdec).
  destruct Hdec as (im' & rgba' & Ho' & Hf' & Hm' & Hc').
  destruct (Hstep out im' rgba' Ho' Hc') as (out' & Hout' & Hdec').
  exists out, out'. repeat split; try assumption. now exists im', rgba'.
Qed.

(** ** Base64 *)

Ltac div_mod_lia := zify; Z.to_euclidean_division_equations; lia.

Lemma b64_index_char (i : N) : (i < 64)%N -> b64_index (b64_char i) = Some i.
Proof.
  intros Hi. destruct i as [|p]; [reflexivity|].
  do 6 (try (destruct p as [p|p|]; try lia)); reflexivity.
Qed.

Lemma b64_index_not_pad (c : ascii) (i : N) : b64_index c = Some i -> is_pad c = false.
Proof.
  intros Hc. unfold is_pad. destruct (Ascii.eqb_spec c "="%char) as [->|]; [|reflexivity].
  vm_compute in Hc. discriminate.
Qed.

Lemma sextet_index (n k : N) : b64_index (sextet n k) = Some ((n / 64 ^ k) mod 64)%N.
Proof. apply b64_index_char. apply N.mod_lt. discriminate. Qed.

Lemma octet_of_byte (n k : N) (a : byte) :
  ((n / 256 ^ k) mod 256)%N = Byte.to_N a -> octet n k = a.
Proof. intros E. unfold octet. now rewrite E, Byte.of_to_N. Qed.

Lemma b64decode_group (c0 c1 c2 c3 : ascii) (rest : string) (i0 i1 i2 i3 : N) :
  b64_index c0 = Some i0 -> b64_index c1 = Some i1 ->
  b64_index c2 = Some i2 -> b64_index c3 = Some i3 ->
  b64decode (String c0 (String c1 (String c2 (String c3 rest)))) =
    match b64decode rest with
    | Some tl =>
        Some (octet (group24 i0 i1 i2 i3) 2 :: octet (group24 i0 i1 i2 i3) 1 ::
              octet (group24 i0 i1 i2 i3) 0 :: tl)
    | None => None
    end.
Proof. intros H0 H1 H2 H3. simpl. now rewrite H0, H1, H2, H3. Qed.

Section Groups.
Variables (a b c : byte).
Let x := Byte.to_N a.
Let y := Byte.to_N b.
Let z := Byte.to_N c.

Lemma byte_bounds : (x <= 255 /\ y <= 255 /\ z <= 255)%N.
Proof. repeat split; apply Byte.to_N_bounded. Qed.

Lemma decode_three (rest : bytes) :
  b64decode (b64encode (a :: b :: c :: rest)) =
    match b64decode (b64encode rest) with
    | Some tl => Some (a :: b :: c :: tl)
    | None => None
    end.
Proof.
  pose proof byte_bounds as (Hx & Hy & Hz).
  change (b64encode (a :: b :: c :: rest))
    with (let n := (x * 65536 + y * 256 + z)%N in
          String (sextet n 3) (String (sextet n 2) (String (sextet n 1)
            (String (sextet n 0) (b64encode rest))))).
  cbv zeta.
  rewrite (b64decode_group _ _ _ _ _ _ _ _ _
             (sextet_index _ 3) (sextet_index _ 2) (sextet_index _ 1) (sextet_index _ 0)).
  change (64 ^ 3)%N with 262144%N. change (64 ^ 2)%N with 4096%N.
  change (64 ^ 1)%N with 64%N. change (64 ^ 0)%N with 1%N.
  set (n := (x * 65536 + y * 256 + z)%N).
  assert (Hn : group24 ((n / 262144) mod 64) ((n / 4096) mod 64)
                       ((n / 64) mod 64) ((n / 1) mod 64) = n).
  { unfold group24, n. div_mod_lia. }
  rewrite Hn.
  rewrite (octet_of_byte n 2 a), (octet_of_byte n 1 b), (octet_of_byte n 0 c);
    [reflexivity | | |].
  - change (256 ^ 0)%N with 1%N. fold z. unfold n. div_mod_lia.
  - change (256 ^ 1)%N with 256%N. fold y. unfold n. div_mod_lia.
  - change (256 ^ 2)%N with 65536%N. fold x. unfold n. div_mod_lia.
Qed.

Lemma decode_two : b64decode (b64encode [a; b]) = Some [a; b].
Proof.
  pose proof byte_bounds as (Hx & Hy & _).
  change (b64encode [a; b])
    with (let n := (x * 65536 + y * 256)%N in
          String (sextet n 3) (String (sextet n 2) (String (sextet n 1) "="))).
  cbv zeta. simpl b64decode. rewrite !sextet_index.
  change (b64_index "=") with (@None N). simpl.
  change (64 ^ 3)%N with 262144%N. change (64 ^ 2)%N with 4096%N.
  change (64 ^ 1)%N with 64%N.
  set (n := (x * 65536 + y * 256)%N).
  assert (Hn : group24 ((n / 262144) mod 64) ((n / 4096) mod 64) ((n / 64) mod 64) 0 = n).
  { unfold group24, n. div_mod_lia. }
  rewrite Hn.
  rewrite (octet_of_byte n 2 a), (octet_of_byte n 1 b); [reflexivity | |].
  - change (256 ^ 1)%N with 256%N. fold y. unfold n. div_mod_lia.
  - change (256 ^ 2)%N with 65536%N. fold x. unfold n. div_mod_lia.
Qed.

Lemma decode_one : b64decode (b64encode [a]) = Some [a].
Proof.
  pose proof byte_bounds as (Hx & _ & _).
  change (b64encode [a])
    with (let n := (x * 65536)%N in String (sextet n 3) (String (sextet n 2) "==")).
  cbv zeta. simpl b64decode. rewrite !sextet_index.
  change (b64_index "=") with (@None N). simpl.
  change (64 ^ 3)%N with 262144%N. change (64 ^ 2)%N with 4096%N.
  set (n := (x * 65536)%N).
  assert (Hn : group24 ((n / 262144) mod 64) ((n / 4096) mod 64) 0 0 = n).
  { unfold group24, n. div_mod_lia. }
  rewrite Hn. rewrite (octet_of_byte n 2 a); [reflexivity|].
  change (256 ^ 2)%N with 65536%N. fold x. unfold n. div_mod_lia.
Qed.
End Groups.

(** Decoding what [b64encode] produced gives the bytes back. *)
Lemma b64decode_b64encode (data : bytes) : b64decode (b64encode data) = Some data.
Proof.
  cut (b64decode (b64encode data) = Some data /\
       (forall a, b64decode (b64encode (a :: data)) = Some (a :: data)) /\
       (forall a b, b64decode (b64encode (a :: b :: data)) = Some (a :: b :: data))).
  { intros [E _]. exact E. }
  induction data as [|c data (IH0 & IH1 & IH2)].
  - split; [reflexivity|].
    split; [intros a; apply (decode_one a a a) | intros a b; apply (decode_two a b b)].
  - split; [exact (IH1 c)|]. split; [intros a; exact (IH2 a c)|].
    intros a b. rewrite decode_three. now rewrite IH0.
Qed.

(** ** The outbound image reference *)

(** C8.  Whenever the handler gets as far as encoding, the one request it
    sends carries, as its image reference, the data URI
    [data:image/png;base64,] followed by the base64 encoding of what
    [ensure_png] returned: the upload itself when Pillow raised, the PNG
    Pillow wrote otherwise.  The media type is the same in both cases. *)
Theorem review_data_url `{PIL} (g : Globals) (image : UploadFile) (c : OpenAI)
    (blob : bytes) :
  client g = Some c ->
  read image = Ret blob -> blob <> [] ->
  exists png req tail,
    ensure_png blob = Ret png /\
    ((pipeline_raises blob /\ png = blob) \/
     (exists im rgba,
         Image_open blob = Ret im /\ Image_convert im "RGBA" = Ret rgba /\
         Image_save rgba "PNG" = Ret png)) /\
    (review g image).2 = EvRead :: EvCreate req :: tail /\
    (forall req', ~ In (EvCreate req') tail) /\
    messages req =
      [mkChatMessage "user"
         [TextPart instruction_text;
          ImageUrlPart ("data:image/png;base64," ++ b64encode png)]] /\
    b64decode (b64encode png) = Some png.
Proof.
  intros Hc Hr Hne.
  assert (Hpng : exists png,
             ensure_png blob = Ret png /\
             ((pipeline_raises blob /\ png = blob) \/
              (exists im rgba,
                  Image_open blob = Ret im /\ Image_convert im "RGBA" = Ret rgba /\
                  Image_save rgba "PNG" = Ret png))).
  { destruct (ensure_png_cases blob) as [[Hu E]|(im & rgba & out & Ho & Hcv & Hs & E)].
    - exists blob. auto.
    - exists out. split; [exact E|]. right. now exists im, rgba. }
  destruct Hpng as (png & Hpng & Hhow).
  pose proof (review_body_call g image c blob png Hc Hr Hne Hpng) as Hbody.
  cbv zeta in Hbody.
  set (req := create_kwargs (MODEL g)
                [TextPart instruction_text;
                 ImageUrlPart ("data:image/png;base64," ++ b64encode png)]) in *.
  destruct (chat_completions_create c req) as [resp|e].
  - exists png, req, []. rewrite (review_of_return g image _ _ Hbody).
    repeat split; auto using b64decode_b64encode.
  - rewrite (review_of_raise g image _ _ Hbody).
    destruct (isinstance_Exception e).
    + exists png, req, [EvTraceback e].
      repeat split; auto using b64decode_b64encode.
      intros req' [Hin|[]]. discriminate.
    + exists png, req, []. repeat split; auto using b64decode_b64encode.
Qed.

(** ** Start-up and the probes *)

Section Startup.
Variables (environ : gmap string string) (new_OpenAI : string -> outcome OpenAI).

Lemma startup_MODEL :
  MODEL (startup environ new_OpenAI).1 = getenv_default environ "OPENAI_MODEL" "gpt-4o-mini".
Proof. unfold startup. now destruct (make_client _ _). Qed.

Lemma startup_OPENAI_API_KEY :
  OPENAI_API_KEY (startup environ new_OpenAI).1 = getenv environ "OPENAI_API_KEY".
Proof. unfold startup. now destruct (make_client _ _). Qed.

Lemma startup_client :
  client (startup environ new_OpenAI).1 =
    match make_client new_OpenAI (getenv environ "OPENAI_API_KEY") with
    | Ret c => Some c
    | Raise _ => None
    end.
Proof. unfold startup. now destruct (make_client _ _). Qed.

(** No credential, or an empty one: no client, and one line on stderr. *)
Lemma startup_without_credential :
  truthy_opt_str (getenv environ "OPENAI_API_KEY") = false ->
  startup environ new_OpenAI =
    (mkGlobals (getenv_default environ "OPENAI_MODEL" "gpt-4o-mini")
               (getenv environ "OPENAI_API_KEY") None,
     [EvStderr ("[startup] OpenAI client not initialized: " ++
                "OPENAI_API_KEY environment variable is not set.")]).
Proof. intros Hk. unfold startup, make_client. now rewrite Hk. Qed.

Lemma make_client_credential (c : OpenAI) :
  make_client new_OpenAI (getenv environ "OPENAI_API_KEY") = Ret c ->
  truthy_opt_str (getenv environ "OPENAI_API_KEY") = true.
Proof.
  unfold make_client. destruct (truthy_opt_str _); [reflexivity | discriminate].
Qed.
End Startup.

Lemma ping_body (g : Globals) :
  http_status (ping g) = 200 /\
  http_body (ping g) !! "ok" = Some (JBool true) /\
  http_body (ping g) !! "model" = Some (JStr (MODEL g)) /\
  http_body (ping g) !! "has_api_key" = Some (JBool (truthy_opt_str (OPENAI_API_KEY g))).
Proof.
  unfold ping, http_body, http_status.
  split; [reflexivity|]. split; [apply lookup_insert_eq|]. split.
  - rewrite lookup_insert_ne by discriminate. apply lookup_insert_eq.
  - rewrite !lookup_insert_ne by discriminate. apply lookup_insert_eq.
Qed.

(** C9.  [/ping] answers 200 with the flag [ok], the model identifier and
    one boolean, the truthiness of the credential; two start-ups that differ
    only in the value of a non-empty credential give the same answer. *)
Theorem ping_hides_credential :
  (forall g,
      http_status (ping g) = 200 /\
      http_body (ping g) =
        <["ok" := JBool true]>
          (<["model" := JStr (MODEL g)]>
            (<["has_api_key" := JBool (truthy_opt_str (OPENAI_API_KEY g))]> ∅))) /\
  (forall (environ : gmap string string) new_OpenAI k1 k2,
      k1 <> EmptyString -> k2 <> EmptyString ->
      ping (startup (<["OPENAI_API_KEY" := k1]> environ) new_OpenAI).1 =
      ping (startup (<["OPENAI_API_KEY" := k2]> environ) new_OpenAI).1).
Proof.
  split; [intros g; split; reflexivity|].
  intros environ new_OpenAI k1 k2 Hk1 Hk2. unfold ping.
  rewrite !startup_MODEL, !startup_OPENAI_API_KEY. unfold getenv, getenv_default.
  rewrite !lookup_insert_eq, !lookup_insert_ne by discriminate.
  destruct k1; [contradiction|]. destruct k2; [contradiction|]. reflexivity.
Qed.

(** C10.  After start-up, a client that exists implies that [/ping] reports
    [has_api_key] as true; the converse fails when the SDK constructor
    raises although the credential is present. *)
Theorem client_implies_has_api_key :
  (forall environ new_OpenAI c,
      client (startup environ new_OpenAI).1 = Some c ->
      http_body (ping (startup environ new_OpenAI).1) !! "has_api_key" = Some (JBool true)) /\
  (exists environ new_OpenAI,
      http_body (ping (startup environ new_OpenAI).1) !! "has_api_key" = Some (JBool true) /\
      client (startup environ new_OpenAI).1 = None).
Proof.
  split.
  - intros environ new_OpenAI c Hc.
    destruct (ping_body (startup environ new_OpenAI).1) as (_ & _ & _ & ->).
    rewrite startup_OPENAI_API_KEY. rewrite startup_client in Hc.
    destruct (make_client _ _) as [c'|] eqn:Hm; [|discriminate].
    now rewrite (make_client_credential _ _ _ Hm).
  - exists (env_with_key "sk-test"), sdk_broken. split; reflexivity.
Qed.

(** ** The definitions at work *)

Example b64encode_not_an_image :
  b64encode not_an_image = "bm90IGFuIGltYWdl".
Proof. reflexivity. Qed.

Example b64encode_padding :
  b64encode (list_byte_of_string "ab") = "YWI=" /\
  b64encode (list_byte_of_string "a") = "YQ==".
Proof. split; reflexivity. Qed.

(** The miniature codec honours the contract. *)
Lemma pil_toy_codec : @PNGCodec pil_toy.
Proof.
  split.
  - intros im mode im' E. simpl in E. unfold toy_convert in E. now inversion E.
  - intros im Hm. simpl in Hm. exists (x50 :: x41 :: toy_pixels im). split.
    + simpl. unfold toy_save. now rewrite Hm.
    + now exists (mkToyImage (Some "PNG") "RGBA" (toy_pixels im)),
                 (mkToyImage None "RGBA" (toy_pixels im)).
Qed.

(** Scenario of the specification: [b"not an image"] is not decoded, and the
    request goes out with these very bytes in the data URI. *)
Example review_not_an_image :
  @ensure_png pil_toy not_an_image = Ret not_an_image /\
  (@review pil_toy
     (startup (env_with_key "sk-test") (sdk_ok (reply_with (Some "<h1>7/10</h1>")))).1
     (upload not_an_image)).2 =
    [EvRead;
     EvCreate (create_kwargs "gpt-4o-mini"
                 [TextPart instruction_text;
                  ImageUrlPart "data:image/png;base64,bm90IGFuIGltYWdl"])].
Proof. split; reflexivity. Qed.

(** Scenario of the specification: a bitmap in another container comes out
    as an RGBA PNG. *)
Example ensure_png_converts_bmp :
  @ensure_png pil_toy [x42; x01; x02; x03] = Ret [x50; x41; x01; x02; x03] /\
  @decodable_as_mode pil_toy "PNG" "RGBA" [x50; x41; x01; x02; x03].
Proof.
  split; [reflexivity|].
  now exists (mkToyImage (Some "PNG") "RGBA" [x01; x02; x03]),
             (mkToyImage None "RGBA" [x01; x02; x03]).
Qed.

Lemma review_success_witness :
  exists r trace wrapped,
    @review pil_toy
      (startup (env_with_key "sk-test") (sdk_ok (reply_with (Some "<h1>7/10</h1>")))).1
      (upload not_an_image) = (Ret r, trace) /\
    http_status r = 200 /\
    http_body r !! "html" = Some (JStr wrapped) /\
    wrapped =
      "<div style=" ++
      String "034"
        ("font-family:-apple-system,Segoe UI,Roboto,Helvetica,Arial,sans-serif;" ++
         "line-height:1.45;" ++ "font-size:14px;" ++
         String "034"
           (">" ++ String "010"
              ("          " ++ "<h1>7/10</h1>" ++ String "010" "        </div>"))) /\
    substring "<h1>7/10</h1>" wrapped.
Proof.
  apply (@review_success pil_toy _ _
           (canned_client (reply_with (Some "<h1>7/10</h1>")))
           not_an_image not_an_image
           (reply_with (Some "<h1>7/10</h1>"))
           (mkChoice (Some (mkChatCompletionMessage (Some "<h1>7/10</h1>")))) []
           (mkChatCompletionMessage (Some "<h1>7/10</h1>")) "<h1>7/10</h1>");
    first [reflexivity | discriminate].
Defined.

(** C2 as stated fails: with no client, an empty upload is answered 500,
    not 400. *)
Lemma empty_upload_without_client :
  client (startup ∅ sdk_broken).1 = None /\
  read (upload []) = Ret [] /\
  @review pil_toy (startup ∅ sdk_broken).1 (upload []) =
    (Ret (JSONResponse 500
            (error_body "OpenAI client not initialized. Check OPENAI_API_KEY.")), []) /\
  http_status (JSONResponse 500
            (error_body "OpenAI client not initialized. Check OPENAI_API_KEY.")) <> 400.
Proof. repeat split; try reflexivity. discriminate. Qed.

Lemma review_empty_upload_witness :
  @review pil_toy
    (startup (env_with_key "sk-test") (sdk_ok (reply_with None))).1 (upload []) =
    (Ret (JSONResponse 400 (error_body "Empty image upload.")), [EvRead]) /\
  http_status (JSONResponse 400 (error_body "Empty image upload.")) = 400.
Proof.
  apply (@review_empty_upload pil_toy _ _ (canned_client (reply_with None))); reflexivity.
Defined.

Lemma review_without_client_witness :
  exists r trace,
    @review pil_toy (startup ∅ sdk_broken).1 (upload not_an_image) = (Ret r, trace) /\
    http_status r = 500 /\
    http_body r !! "error" =
      Some (JStr "OpenAI client not initialized. Check OPENAI_API_KEY.") /\
    trace = [] /\ ~ In EvRead trace.
Proof. apply (@review_without_client pil_toy). reflexivity. Defined.

Lemma review_no_content_witness :
  exists r trace,
    @review pil_toy
      (startup (env_with_key "sk-test") (sdk_ok (reply_with (Some EmptyString)))).1
      (upload not_an_image) = (Ret r, trace) /\
    http_status r = 502 /\
    http_body r !! "error" = Some (JStr "Model returned no content.").
Proof.
  apply (@review_no_content pil_toy _ _
           (canned_client (reply_with (Some EmptyString)))
           not_an_image not_an_image (reply_with (Some EmptyString)));
    try first [reflexivity | discriminate].
  right. exists (mkChoice (Some (mkChatCompletionMessage (Some EmptyString)))), [].
  split; [reflexivity|]. right.
  exists (mkChatCompletionMessage (Some EmptyString)). split; [reflexivity|]. now right.
Defined.

Lemma ensure_png_fallback_witness :
  @ensure_png pil_toy not_an_image = Ret not_an_image.
Proof.
  apply (proj1 (@ensure_png_fallback pil_toy)). left. eexists. reflexivity.
Defined.

Lemma ensure_png_keeps_png_witness :
  exists out out',
    @ensure_png pil_toy [x50; x4c; x07; x09] = Ret out /\
    @decodable_as_mode pil_toy "PNG" "RGBA" out /\
    @ensure_png pil_toy out = Ret out' /\
    @decodable_as_mode pil_toy "PNG" "RGBA" out'.
Proof.
  apply (@ensure_png_keeps_png pil_toy pil_toy_codec).
  exists (mkToyImage (Some "PNG") "L" [x07; x09]), (mkToyImage None "RGBA" [x07; x09]).
  repeat split; reflexivity.
Defined.

Lemma review_data_url_witness :
  exists png req tail,
    @ensure_png pil_toy [x42; x01] = Ret png /\
    ((@pipeline_raises pil_toy [x42; x01] /\ png = [x42; x01]) \/
     (exists im rgba,
         toy_open [x42; x01] = Ret im /\ toy_convert im "RGBA" = Ret rgba /\
         toy_save rgba "PNG" = Ret png)) /\
    (@review pil_toy
       (startup (env_with_key "sk-test") (sdk_ok (reply_with None))).1
       (upload [x42; x01])).2 = EvRead :: EvCreate req :: tail /\
    (forall req', ~ In (EvCreate req') tail) /\
    messages req =
      [mkChatMessage "user"
         [TextPart instruction_text;
          ImageUrlPart ("data:image/png;base64," ++ b64encode png)]] /\
    b64decode (b64encode png) = Some png.
Proof.
  apply (@review_data_url pil_toy _ _ (canned_client (reply_with None)));
    first [reflexivity | discriminate].
Defined.

Lemma ping_hides_credential_witness :
  ping (startup (<["OPENAI_API_KEY" := "sk-alpha"]> ∅) sdk_broken).1 =
  ping (startup (<["OPENAI_API_KEY" := "sk-beta"]> ∅) sdk_broken).1.
Proof. apply (proj2 ping_hides_credential); discriminate. Defined.

Lemma client_implies_has_api_key_witness :
  http_body (ping (startup (env_with_key "sk-test") (sdk_ok (reply_with None))).1)
    !! "has_api_key" = Some (JBool true).
Proof.
  apply (proj1 client_implies_has_api_key _ _ (canned_client (reply_with None))).
  reflexivity.
Defined.


(** * Further properties of the module *)

(** ** Every run of [/review] *)

Lemma has_content_functional (resp : ChatCompletion) (h1 h2 : string) :
  has_content resp h1 -> has_content resp h2 -> h1 = h2.
Proof.
  intros (ch1 & r1 & m1 & Hc1 & Hm1 & Ht1 & _) (ch2 & r2 & m2 & Hc2 & Hm2 & Ht2 & _).
  congruence.
Qed.

(** Lines 79-81 find the content exactly when the reply has some. *)
Lemma extract_html_spec (resp : ChatCompletion) :
  (exists html, extract_html resp = Some html /\ has_content resp html) \/
  (extract_html resp = None /\ forall html, ~ has_content resp html).
Proof.
  unfold extract_html, has_content.
  destruct (choices resp) as [|ch rest] eqn:Hch.
  { right. split; [reflexivity|]. intros html (? & ? & ? & ? & _). discriminate. }
  destruct (message ch) as [m|] eqn:Hm.
  2:{ right. split; [reflexivity|]. intros html (? & ? & ? & E & Hm' & _).
      inversion E; subst. congruence. }
  destruct (message_content m) as [[|a s]|] eqn:Ht; simpl.
  - right. split; [reflexivity|]. intros html (? & ? & ? & E & Hm' & Ht' & Hne).
    inversion E; subst. congruence.
  - left. exists (String a s). split; [reflexivity|].
    exists ch, rest, m. repeat split; auto; discriminate.
  - right. split; [reflexivity|]. intros html (? & ? & ? & E & Hm' & Ht' & _).
    inversion E; subst. congruence.
Qed.

Lemma review_run `{PIL} (g : Globals) (image : UploadFile) : Run g image (review g image).
Proof.
  destruct (client g) as [c|] eqn:Hc.
  2:{ rewrite (review_of_return g image _ _ (review_body_no_client g image Hc)).
      now constructor. }
  destruct (read image) as [blob|e] eqn:Hr.
  2:{ rewrite (review_of_raise g image _ _ (review_body_read_raises g image c e Hc Hr)).
      destruct (isinstance_Exception e) eqn:Hi; [|now apply RunReadEscapes with c].
      pose proof (JSONResponse_init_error 500 (exc_str e)) as Hj.
      destruct (has_surrogate (exc_str e)) eqn:Hs; rewrite Hj.
      - now apply RunReadUnrendered with c.
      - now apply RunReadRaises with c. }
  destruct blob as [|b0 blob'].
  { rewrite (review_of_return g image _ _ (review_body_empty g image c Hc Hr)).
    now apply RunEmpty with c. }
  destruct (ensure_png_total (b0 :: blob')) as [png Hpng].
  assert (Hne : b0 :: blob' <> []) by discriminate.
  assert (Hreach : reaches_call g image c png) by (exists (b0 :: blob'); auto).
  pose proof (review_body_call g image c _ png Hc Hr Hne Hpng) as Hbody.
  cbv zeta in Hbody. fold (the_request g png) in Hbody.
  destruct (chat_completions_create c (the_request g png)) as [resp|e] eqn:Hcall.
  - rewrite (review_of_return g image _ _ Hbody).
    destruct (extract_html_spec resp) as [(html & -> & Hhas)|[-> Hnone]].
    + pose proof Hhas as (_ & _ & _ & _ & _ & _ & Hnz).
      destruct html as [|a s]; [contradiction|].
      rewrite strip_wrap_template. now apply RunSuccess with c resp.
    + now apply RunNoContent with c resp.
  - rewrite (review_of_raise g image _ _ Hbody).
    destruct (isinstance_Exception e) eqn:Hi; [|now apply RunCallEscapes with c].
    pose proof (JSONResponse_init_error 500 (exc_str e)) as Hj.
    destruct (has_surrogate (exc_str e)) eqn:Hs; rewrite Hj.
    + now apply RunCallUnrendered with c.
    + now apply RunCallRaises with c.
Qed.

(** What gets a run to the call is determined by the request. *)
Lemma reaches_call_functional `{PIL} (g : Globals) (image : UploadFile)
    (c1 c2 : OpenAI) (p1 p2 : bytes) :
  reaches_call g image c1 p1 -> reaches_call g image c2 p2 -> c1 = c2 /\ p1 = p2.
Proof.
  intros (b1 & Hc1 & Hr1 & _ & Hp1) (b2 & Hc2 & Hr2 & _ & Hp2).
  split; [congruence|]. assert (b1 = b2) by congruence. subst. congruence.
Qed.

Ltac run_cases g image H :=
  let HR := fresh "HR" in
  pose proof (review_run g image) as HR; rewrite H in HR;
  inversion HR; subst; clear HR.

(** Facts that place one request on two different paths contradict. *)
Ltac other_path :=
  repeat match goal with
         | H : exists _, _ |- _ => destruct H
         | H : _ /\ _ |- _ => destruct H
         | H : _ \/ _ |- _ => destruct H
         end;
  repeat match goal with
         | H1 : reaches_call ?g ?i ?c1 ?p1, H2 : reaches_call ?g ?i ?c2 ?p2 |- _ =>
             destruct (reaches_call_functional g i c1 c2 p1 p2 H1 H2); subst; clear H2
         end;
  repeat match goal with
         | H : reaches_call _ _ _ _ |- _ => destruct H as (? & ? & ? & ? & ?)
         end;
  try congruence;
  try match goal with
      | H1 : chat_completions_create ?c ?q = Ret ?r1,
        H2 : chat_completions_create ?c ?q = Ret ?r2 |- _ =>
          assert (r1 = r2) by congruence; subst
      end;
  try match goal with
      | H : forall html, ~ has_content ?r html, H' : has_content ?r _ |- _ =>
          destruct (H _ H')
      end.

Lemma error_body_html (msg : string) : error_body msg !! "html" = None.
Proof. unfold error_body. rewrite lookup_insert_ne by discriminate. apply lookup_empty. Qed.

Lemma error_body_error (msg : string) : error_body msg !! "error" = Some (JStr msg).
Proof. apply lookup_insert_eq. Qed.

Lemma html_body_html (s : string) :
  (<["html" := JStr s]> ∅ : gmap string JSON) !! "html" = Some (JStr s).
Proof. apply lookup_insert_eq. Qed.

Lemma html_body_error (s : string) :
  (<["html" := JStr s]> ∅ : gmap string JSON) !! "error" = None.
Proof. rewrite lookup_insert_ne by discriminate. apply lookup_empty. Qed.

Section Runs.
Context `{PIL}.
Variables (g : Globals) (image : UploadFile).

(** X1.  A response the handler returns has one of four status codes, and
    its body has the key [html] exactly when the status is 200, the key
    [error] otherwise. *)
Theorem review_status_codes (r : Response) (trace : list Event) :
  review g image = (Ret r, trace) ->
  (http_status r = 200 \/ http_status r = 400 \/
   http_status r = 500 \/ http_status r = 502) /\
  (http_status r = 200 <-> is_Some (http_body r !! "html")) /\
  (http_status r <> 200 <-> is_Some (http_body r !! "error")).
Proof.
  intros E.
  run_cases g image E; cbn [http_status http_body];
    rewrite ?error_body_html, ?error_body_error, ?html_body_html, ?html_body_error;
    (split; [tauto|]); split; split; intros Hx;
    first [ discriminate | reflexivity | contradiction | now eexists
          | destruct Hx; discriminate ].
Qed.


(** X2.  Status 200 is given exactly when the call was reached and the reply has
    non-empty first content: the converse of the success path. *)
Theorem review_200_iff (r : Response) (trace : list Event) :
  review g image = (Ret r, trace) ->
  (http_status r = 200 <->
   exists c png resp html,
     reaches_call g image c png /\
     chat_completions_create c (the_request g png) = Ret resp /\
     has_content resp html).
Proof.
  intros E. run_cases g image E; simpl; split; intros Hx;
    try discriminate; try reflexivity; try (exfalso; other_path; fail).
  eauto 10.
Qed.

(** X3.  Status 400 is given exactly when there is a client and the body read is
    empty. *)
Theorem review_400_iff (r : Response) (trace : list Event) :
  review g image = (Ret r, trace) ->
  (http_status r = 400 <-> exists c, client g = Some c /\ read image = Ret []).
Proof.
  intros E. run_cases g image E; simpl; split; intros Hx;
    try discriminate; try reflexivity; try (exfalso; other_path; fail).
  eauto.
Qed.

(** X4.  Status 502 is given exactly when the collaborator answered and its reply
    has no usable first content. *)
Theorem review_502_iff (r : Response) (trace : list Event) :
  review g image = (Ret r, trace) ->
  (http_status r = 502 <->
   exists c png resp,
     reaches_call g image c png /\
     chat_completions_create c (the_request g png) = Ret resp /\
     forall html, ~ has_content resp html).
Proof.
  intros E. run_cases g image E; simpl; split; intros Hx;
    try discriminate; try reflexivity; try (exfalso; other_path; fail).
  eauto 10.
Qed.

End Runs.

(** ** What a request does to the outside *)

Section Effects.
Context `{PIL}.
Variables (g : Globals) (image : UploadFile).


Lemma review_create_event (req : ChatRequest) :
  In (EvCreate req) (review g image).2 ->
  exists c png, reaches_call g image c png /\ req = the_request g png.
Proof.
  intros Hin. destruct (review g image) as [o trace] eqn:E.
  pose proof (review_run g image) as HR. rewrite E in HR. simpl in Hin.
  inversion HR; subst; simpl in Hin;
    repeat match goal with
           | X : _ \/ _ |- _ => destruct X
           | X : False |- _ => destruct X
           | X : EvRead = EvCreate _ |- _ => discriminate X
           | X : EvTraceback _ = EvCreate _ |- _ => discriminate X
           | X : EvCreate _ = EvCreate _ |- _ => inversion X; subst; clear X
           end;
    eauto.
Qed.

(** X7.  Whenever the collaborator is called, the upload was read and is not
    empty, and the request is the fixed one: the configured model,
    temperature 0.5, a single [user] message made of the instruction text
    and the data URI of the normalised bytes. *)
Theorem review_request_shape (req : ChatRequest) :
  In (EvCreate req) (review g image).2 ->
  exists c blob png,
    client g = Some c /\ read image = Ret blob /\ blob <> [] /\
    ensure_png blob = Ret png /\
    model req = MODEL g /\
    temperature req = (1 # 2)%Q /\
    messages req =
      [mkChatMessage "user"
         [TextPart instruction_text;
          ImageUrlPart ("data:image/png;base64," ++ b64encode png)]].
Proof.
  intros Hin.
  destruct (review_create_event req Hin) as (c & png & (blob & Hc & Hr & Hne & Hpng) & ->).
  exists c, blob, png. repeat split; auto.
Qed.
End Effects.

(** X8.  The reply is used through its first candidate only: two clients whose
    replies to the request agree on the first candidate get the same
    answer, whatever candidates follow. *)
Theorem review_first_choice_only `{PIL} (g1 g2 : Globals) (image : UploadFile)
    (c1 c2 : OpenAI) (png : bytes) (resp1 resp2 : ChatCompletion) :
  MODEL g1 = MODEL g2 ->
  reaches_call g1 image c1 png ->
  client g2 = Some c2 ->
  chat_completions_create c1 (the_request g1 png) = Ret resp1 ->
  chat_completions_create c2 (the_request g2 png) = Ret resp2 ->
  head (choices resp1) = head (choices resp2) ->
  review g1 image = review g2 image.
Proof.
  intros HM (blob & Hc1 & Hr & Hne & Hpng) Hc2 Hcall1 Hcall2 Hhead.
  assert (Hx : extract_html resp1 = extract_html resp2).
  { unfold extract_html.
    destruct (choices resp1) as [|a1 l1], (choices resp2) as [|a2 l2];
      try discriminate; [reflexivity|]. simpl in Hhead. now inversion Hhead. }
  pose proof (review_body_call g1 image c1 blob png Hc1 Hr Hne Hpng) as Hb1.
  pose proof (review_body_call g2 image c2 blob png Hc2 Hr Hne Hpng) as Hb2.
  cbv zeta in Hb1, Hb2. fold (the_request g1 png) in Hb1. fold (the_request g2 png) in Hb2.
  rewrite Hcall1 in Hb1. rewrite Hcall2 in Hb2.
  unfold review, try_except_M. rewrite Hb1, Hb2, Hx.
  unfold the_request. now rewrite HM.
Qed.

(** ** Start-up, seen through the probes and the handler *)

Section Service.
Variables (environ : gmap string string) (new_OpenAI : string -> outcome OpenAI).

(** X9.  Importing the module leaves a client exactly when the environment has
    a non-empty credential and the SDK constructor, given that very value,
    returns; and it is silent on stderr exactly in that case. *)
Theorem startup_client_iff :
  (forall c,
      client (startup environ new_OpenAI).1 = Some c <->
      exists k, environ !! "OPENAI_API_KEY" = Some k /\ k <> EmptyString /\
                new_OpenAI k = Ret c) /\
  ((startup environ new_OpenAI).2 = [] <->
   is_Some (client (startup environ new_OpenAI).1)).
Proof.
  unfold startup, make_client, getenv.
  destruct (environ !! "OPENAI_API_KEY") as [[|a k]|] eqn:Hk; simpl.
  - split; [intros c; split; [discriminate | intros (k & E & Hne & _); congruence]|].
    split; [discriminate | intros [c Hc]; discriminate].
  - destruct (new_OpenAI (String a k)) as [c0|e] eqn:Hnew; simpl.
    + split; [|split; [eauto | reflexivity]].
      intros c. split.
      * intros E. inversion E; subst. exists (String a k). repeat split; auto; discriminate.
      * intros (k' & E & _ & Hn). inversion E; subst. congruence.
    + split; [|split; [discriminate | intros [c Hc]; discriminate]].
      intros c. split; [discriminate|].
      intros (k' & E & _ & Hn). inversion E; subst. congruence.
  - split; [intros c; split; [discriminate | intros (k & E & _); discriminate]|].
    split; [discriminate | intros [c Hc]; discriminate].
Qed.

Context `{PIL}.

(** X10.  With the credential unset or empty the service starts all the same:
    one line on stderr, the SDK constructor not consulted, [/ping]
    reporting [has_api_key] false and [/review] answering 500 to every
    upload without reading it. *)
Theorem service_without_credential (image : UploadFile) :
  environ !! "OPENAI_API_KEY" = None \/ environ !! "OPENAI_API_KEY" = Some EmptyString ->
  (startup environ new_OpenAI).2 =
    [EvStderr ("[startup] OpenAI client not initialized: " ++
               "OPENAI_API_KEY environment variable is not set.")] /\
  http_body (ping (startup environ new_OpenAI).1) !! "has_api_key" = Some (JBool false) /\
  review (startup environ new_OpenAI).1 image =
    (Ret (JSONResponse 500
            (error_body "OpenAI client not initialized. Check OPENAI_API_KEY.")), []).
Proof.
  intros Hk.
  assert (Ht : truthy_opt_str (getenv environ "OPENAI_API_KEY") = false).
  { unfold getenv. now destruct Hk as [-> | ->]. }
  rewrite (startup_without_credential environ new_OpenAI Ht). cbn [fst snd].
  split; [reflexivity|]. split.
  - destruct (ping_body (mkGlobals (getenv_default environ "OPENAI_MODEL" "gpt-4o-mini")
                           (getenv environ "OPENAI_API_KEY") None)) as (_ & _ & _ & ->).
    simpl. now rewrite Ht.
  - unfold review, try_except_M. now rewrite review_body_no_client.
Qed.

(** X11.  When the credential is there but the SDK constructor raises [e], the
    service starts with [str(e)] on stderr and no client: [/ping] reports
    [has_api_key] true while [/review] answers 500 to every upload. *)
Theorem service_constructor_raises (image : UploadFile) (k : string) (e : Exception) :
  environ !! "OPENAI_API_KEY" = Some k -> k <> EmptyString ->
  new_OpenAI k = Raise e ->
  (startup environ new_OpenAI).2 =
    [EvStderr ("[startup] OpenAI client not initialized: " ++ exc_str e)] /\
  http_body (ping (startup environ new_OpenAI).1) !! "has_api_key" = Some (JBool true) /\
  review (startup environ new_OpenAI).1 image =
    (Ret (JSONResponse 500
            (error_body "OpenAI client not initialized. Check OPENAI_API_KEY.")), []).
Proof.
  intros Hk Hne Hnew.
  assert (Hs : startup environ new_OpenAI =
               (mkGlobals (getenv_default environ "OPENAI_MODEL" "gpt-4o-mini") (Some k) None,
                [EvStderr ("[startup] OpenAI client not initialized: " ++ exc_str e)])).
  { unfold startup, make_client, getenv. rewrite Hk.
    destruct k; [contradiction|]. simpl. now rewrite Hnew. }
  rewrite Hs. cbn [fst snd]. split; [reflexivity|]. split.
  - destruct (ping_body (mkGlobals (getenv_default environ "OPENAI_MODEL" "gpt-4o-mini")
                           (Some k) None)) as (_ & _ & _ & ->).
    simpl. now destruct k.
  - unfold review, try_except_M. now rewrite review_body_no_client.
Qed.

(** X12.  The model identifier is the value of [OPENAI_MODEL] when the variable is
    set, even to the empty string, and [gpt-4o-mini] otherwise; it is the
    one [/ping] reports and the one every request of [/review] names. *)
Theorem service_model (image : UploadFile) :
  http_body (ping (startup environ new_OpenAI).1) !! "model" =
    Some (JStr (default "gpt-4o-mini" (environ !! "OPENAI_MODEL"))) /\
  forall req,
    In (EvCreate req) (review (startup environ new_OpenAI).1 image).2 ->
    model req = default "gpt-4o-mini" (environ !! "OPENAI_MODEL").
Proof.
  assert (HM : MODEL (startup environ new_OpenAI).1 =
               default "gpt-4o-mini" (environ !! "OPENAI_MODEL")).
  { rewrite startup_MODEL. unfold getenv_default.
    now destruct (environ !! "OPENAI_MODEL"). }
  split.
  - destruct (ping_body (startup environ new_OpenAI).1) as (_ & _ & -> & _).
    now rewrite HM.
  - intros req Hin.
    destruct (review_create_event _ _ req Hin) as (c & png & _ & ->). exact HM.
Qed.
End Service.

(** ** More on [ensure_png] *)

Section Conversion.
Context `{PNGCodec}.

Lemma ensure_png_step (data : bytes) (im rgba : Image) :
  Image_open data = Ret im -> Image_convert im "RGBA" = Ret rgba ->
  exists out, ensure_png data = Ret out /\ decodable_as_mode "PNG" "RGBA" out.
Proof.
  intros Ho Hc.
  destruct (save_rgba_png rgba (convert_mode _ _ _ Hc)) as (out & Hs & Hout).
  exists out. split; [|exact Hout].
  unfold ensure_png, try_except, mbind, outcome_bind, mret, outcome_ret.
  now rewrite Ho, Hc, Hs.
Qed.

(** X13.  Under Pillow's contract, whatever container format the upload is in,
    if Pillow opens and decodes it then [ensure_png] returns a decodable
    RGBA PNG. *)
Theorem ensure_png_converts (fmt : string) (data : bytes) :
  decodable_as fmt data ->
  exists out, ensure_png data = Ret out /\ decodable_as_mode "PNG" "RGBA" out.
Proof. intros (im & rgba & Ho & _ & Hc). exact (ensure_png_step data im rgba Ho Hc). Qed.

(** X14.  Under Pillow's contract, [ensure_png] returns either a decodable RGBA
    PNG, or the input itself, and the latter only when [Image.open] or the
    conversion to RGBA raised. *)
Theorem ensure_png_input_or_rgba_png (data : bytes) :
  exists out,
    ensure_png data = Ret out /\
    (decodable_as_mode "PNG" "RGBA" out \/
     (out = data /\
      ((exists e, Image_open data = Raise e) \/
       (exists im e, Image_open data = Ret im /\ Image_convert im "RGBA" = Raise e)))).
Proof.
  destruct (Image_open data) as [im|e] eqn:Ho.
  - destruct (Image_convert im "RGBA") as [rgba|e] eqn:Hc.
    + destruct (ensure_png_step data im rgba Ho Hc) as (out & E & Hout). eauto.
    + exists data. split.
      * apply ensure_png_returns_input. right. left. eauto.
      * right. split; [reflexivity|]. right. eauto.
  - exists data. split.
    + apply ensure_png_returns_input. left. eauto.
    + right. split; [reflexivity|]. left. eauto.
Qed.
End Conversion.

(** ** More on the data URI *)

Lemma all_chars_impl (p q : ascii -> bool) (s : string) :
  (forall c, p c = true -> q c = true) -> all_chars p s = true -> all_chars q s = true.
Proof.
  intros Hpq. induction s as [|c s IH]; [reflexivity|]. simpl.
  intros Hs. apply andb_prop in Hs. destruct Hs as [Hc Hs].
  now rewrite (Hpq c Hc), (IH Hs).
Qed.

Lemma sextet_symbol (n k : N) : b64_symbol (sextet n k) = true.
Proof. unfold b64_symbol. now rewrite sextet_index. Qed.

Lemma b64_symbol_ascii (c : ascii) : b64_symbol c = true -> (N_of_ascii c <? 128)%N = true.
Proof.
  unfold b64_symbol, b64_index, is_pad. intros Hs. apply N.ltb_lt.
  destruct ((65 <=? N_of_ascii c) && (N_of_ascii c <=? 90))%N eqn:E1;
    [apply andb_prop in E1; destruct E1 as [_ E1]; apply N.leb_le in E1; lia|].
  destruct ((97 <=? N_of_ascii c) && (N_of_ascii c <=? 122))%N eqn:E2;
    [apply andb_prop in E2; destruct E2 as [_ E2]; apply N.leb_le in E2; lia|].
  destruct ((48 <=? N_of_ascii c) && (N_of_ascii c <=? 57))%N eqn:E3;
    [apply andb_prop in E3; destruct E3 as [_ E3]; apply N.leb_le in E3; lia|].
  destruct (N_of_ascii c =? 43)%N eqn:E4; [apply N.eqb_eq in E4; lia|].
  destruct (N_of_ascii c =? 47)%N eqn:E5; [apply N.eqb_eq in E5; lia|].
  destruct (Ascii.eqb_spec c "="%char) as [->|]; [vm_compute; reflexivity | discriminate].
Qed.

(** A property of every encoding follows from the three shapes of a group. *)
Lemma b64encode_ind (P : bytes -> Prop) :
  P [] -> (forall a, P [a]) -> (forall a b, P [a; b]) ->
  (forall a b c rest, P rest -> P (a :: b :: c :: rest)) ->
  forall data, P data.
Proof.
  intros H0 H1 H2 H3 data.
  cut (P data /\ (forall a, P (a :: data)) /\ (forall a b, P (a :: b :: data))).
  { intros [E _]. exact E. }
  induction data as [|c data (IH0 & IH1 & IH2)]; [auto|].
  split; [exact (IH1 c)|]. split; [intros a; exact (IH2 a c)|].
  intros a b. now apply H3.
Qed.

Lemma b64encode_three (a b c : byte) (rest : bytes) :
  exists c0 c1 c2 c3,
    b64encode (a :: b :: c :: rest) =
      String c0 (String c1 (String c2 (String c3 (b64encode rest)))) /\
    b64_symbol c0 = true /\ b64_symbol c1 = true /\
    b64_symbol c2 = true /\ b64_symbol c3 = true.
Proof.
  eexists _, _, _, _. split; [reflexivity|]. repeat split; apply sextet_symbol.
Qed.

(** X15.  The text [b64encode] gives is four characters for every three bytes,
    the last group padded: [4 * ceil(len / 3)] characters in all. *)
Theorem b64encode_length (data : bytes) :
  String.length (b64encode data) = (4 * ((List.length data + 2) / 3))%nat.
Proof.
  induction data as [| | |a b c rest IH] using b64encode_ind; try reflexivity.
  destruct (b64encode_three a b c rest) as (c0 & c1 & c2 & c3 & -> & _).
  cbn [String.length List.length]. rewrite IH.
  replace (S (S (S (List.length rest))) + 2)%nat
    with ((List.length rest + 2) + 1 * 3)%nat by lia.
  rewrite Nat.div_add by discriminate. lia.
Qed.

(** X16.  The text [b64encode] gives is made of the 64 symbols of the alphabet
    and the pad only, so [.decode("ascii")] on line 62 never raises. *)
Theorem b64encode_ascii (data : bytes) :
  all_chars b64_symbol (b64encode data) = true /\
  decode_ascii (b64encode data) = Ret (b64encode data).
Proof.
  assert (Hsym : all_chars b64_symbol (b64encode data) = true).
  { induction data as [|a|a b|a b c rest IH] using b64encode_ind.
    - reflexivity.
    - cbn [b64encode all_chars]. now rewrite !sextet_symbol.
    - cbn [b64encode all_chars]. now rewrite !sextet_symbol.
    - destruct (b64encode_three a b c rest) as (c0 & c1 & c2 & c3 & -> & H0 & H1 & H2 & H3).
      cbn [all_chars]. now rewrite H0, H1, H2, H3, IH. }
  split; [exact Hsym|]. unfold decode_ascii.
  now rewrite (all_chars_impl _ _ _ b64_symbol_ascii Hsym).
Qed.

(** X17.  Different bytes never give the same image reference. *)
Theorem data_url_injective (png1 png2 : bytes) :
  "data:image/png;base64," ++ b64encode png1 =
  "data:image/png;base64," ++ b64encode png2 ->
  png1 = png2.
Proof.
  intros E.
  assert (E' : b64encode png1 = b64encode png2).
  { revert E. generalize (b64encode png1) (b64encode png2). intros s1 s2 E.
    repeat (rewrite append_cons in E; inversion E as [E0]; clear E; rename E0 into E).
    exact E. }
  pose proof (b64decode_b64encode png1) as D1. rewrite E', b64decode_b64encode in D1.
  now inversion D1.
Qed.

(** ** The further properties at work *)

Lemma review_status_codes_witness :
  (http_status (JSONResponse 502 (error_body "Model returned no content.")) = 200 \/
   http_status (JSONResponse 502 (error_body "Model returned no content.")) = 400 \/
   http_status (JSONResponse 502 (error_body "Model returned no content.")) = 500 \/
   http_status (JSONResponse 502 (error_body "Model returned no content.")) = 502) /\
  (http_status (JSONResponse 502 (error_body "Model returned no content.")) = 200 <->
   is_Some (http_body (JSONResponse 502 (error_body "Model returned no content."))
              !! "html")) /\
  (http_status (JSONResponse 502 (error_body "Model returned no content.")) <> 200 <->
   is_Some (http_body (JSONResponse 502 (error_body "Model returned no content."))
              !! "error")).
Proof.
  apply (@review_status_codes pil_toy (globals_with_reply None) (upload not_an_image) _
           [EvRead; EvCreate (the_request (globals_with_reply None) not_an_image)]).
  reflexivity.
Defined.



Lemma review_200_iff_witness :
  http_status (Dict (<["html" := JStr (container "<h1>7/10</h1>")]> ∅)) = 200 <->
  exists c png resp html,
    @reaches_call pil_toy (globals_with_reply (Some "<h1>7/10</h1>"))
      (upload not_an_image) c png /\
    chat_completions_create c
      (the_request (globals_with_reply (Some "<h1>7/10</h1>")) png) = Ret resp /\
    has_content resp html.
Proof.
  apply (@review_200_iff pil_toy (globals_with_reply (Some "<h1>7/10</h1>"))
           (upload not_an_image) _
           [EvRead; EvCreate (the_request (globals_with_reply (Some "<h1>7/10</h1>"))
                                not_an_image)]).
  reflexivity.
Defined.

Lemma review_400_iff_witness :
  http_status (JSONResponse 400 (error_body "Empty image upload.")) = 400 <->
  exists c, client (globals_with_reply None) = Some c /\ read (upload []) = Ret [].
Proof.
  apply (@review_400_iff pil_toy (globals_with_reply None) (upload []) _ [EvRead]).
  reflexivity.
Defined.

Lemma review_502_iff_witness :
  http_status (JSONResponse 502 (error_body "Model returned no content.")) = 502 <->
  exists c png resp,
    @reaches_call pil_toy (globals_with_reply None) (upload not_an_image) c png /\
    chat_completions_create c (the_request (globals_with_reply None) png) = Ret resp /\
    forall html, ~ has_content resp html.
Proof.
  apply (@review_502_iff pil_toy (globals_with_reply None) (upload not_an_image) _
           [EvRead; EvCreate (the_request (globals_with_reply None) not_an_image)]).
  reflexivity.
Defined.



Lemma review_request_shape_witness :
  exists c blob png,
    client (globals_with_reply None) = Some c /\
    read (upload [x42; x01]) = Ret blob /\ blob <> [] /\
    @ensure_png pil_toy blob = Ret png /\
    model (the_request (globals_with_reply None) [x50; x41; x01]) =
      MODEL (globals_with_reply None) /\
    temperature (the_request (globals_with_reply None) [x50; x41; x01]) = (1 # 2)%Q /\
    messages (the_request (globals_with_reply None) [x50; x41; x01]) =
      [mkChatMessage "user"
         [TextPart instruction_text;
          ImageUrlPart ("data:image/png;base64," ++ b64encode png)]].
Proof.
  apply (@review_request_shape pil_toy (globals_with_reply None) (upload [x42; x01])).
  right. left. reflexivity.
Defined.

Lemma review_first_choice_only_witness :
  @review pil_toy (mkGlobals "m" (Some "k") (Some (client_with_choices ["A"])))
    (upload not_an_image) =
  @review pil_toy (mkGlobals "m" (Some "k") (Some (client_with_choices ["A"; "B"])))
    (upload not_an_image).
Proof.
  apply (@review_first_choice_only pil_toy _ _ _
           (client_with_choices ["A"]) (client_with_choices ["A"; "B"]) not_an_image
           (mkChatCompletion
              [mkChoice (Some (mkChatCompletionMessage (Some "A")))])
           (mkChatCompletion
              [mkChoice (Some (mkChatCompletionMessage (Some "A")));
               mkChoice (Some (mkChatCompletionMessage (Some "B")))]));
    try reflexivity.
  exists not_an_image. repeat split; try reflexivity. discriminate.
Defined.

Lemma startup_client_iff_witness :
  exists k, env_with_key "sk-test" !! "OPENAI_API_KEY" = Some k /\ k <> EmptyString /\
            sdk_ok (reply_with None) k = Ret (canned_client (reply_with None)).
Proof.
  apply (proj1 (startup_client_iff (env_with_key "sk-test") (sdk_ok (reply_with None)))
           (canned_client (reply_with None))).
  reflexivity.
Defined.

Lemma service_without_credential_witness :
  (startup (env_with_key EmptyString) (sdk_ok (reply_with None))).2 =
    [EvStderr ("[startup] OpenAI client not initialized: " ++
               "OPENAI_API_KEY environment variable is not set.")] /\
  http_body (ping (startup (env_with_key EmptyString) (sdk_ok (reply_with None))).1)
    !! "has_api_key" = Some (JBool false) /\
  @review pil_toy (startup (env_with_key EmptyString) (sdk_ok (reply_with None))).1
    (upload not_an_image) =
    (Ret (JSONResponse 500
            (error_body "OpenAI client not initialized. Check OPENAI_API_KEY.")), []).
Proof.
  apply (@service_without_credential (env_with_key EmptyString) (sdk_ok (reply_with None))
           pil_toy).
  right. reflexivity.
Defined.

Lemma service_constructor_raises_witness :
  (startup (env_with_key "sk-test") sdk_broken).2 =
    [EvStderr ("[startup] OpenAI client not initialized: " ++ "client construction failed")] /\
  http_body (ping (startup (env_with_key "sk-test") sdk_broken).1) !! "has_api_key" =
    Some (JBool true) /\
  @review pil_toy (startup (env_with_key "sk-test") sdk_broken).1 (upload not_an_image) =
    (Ret (JSONResponse 500
            (error_body "OpenAI client not initialized. Check OPENAI_API_KEY.")), []).
Proof.
  apply (@service_constructor_raises (env_with_key "sk-test") sdk_broken pil_toy
           (upload not_an_image) "sk-test"
           (mkException "OpenAIError" "client construction failed"));
    first [reflexivity | discriminate].
Defined.

Lemma service_model_witness :
  model (the_request
           (startup (<["OPENAI_MODEL" := EmptyString]> (env_with_key "sk-test"))
              (sdk_ok (reply_with None))).1 not_an_image) = EmptyString.
Proof.
  exact (proj2 (@service_model
                  (<["OPENAI_MODEL" := EmptyString]> (env_with_key "sk-test"))
                  (sdk_ok (reply_with None)) pil_toy (upload not_an_image))
           (the_request
              (startup (<["OPENAI_MODEL" := EmptyString]> (env_with_key "sk-test"))
                 (sdk_ok (reply_with None))).1 not_an_image)
           (or_intror (or_introl eq_refl))).
Defined.

Lemma ensure_png_converts_witness :
  exists out,
    @ensure_png pil_toy [x42; x01; x02] = Ret out /\
    @decodable_as_mode pil_toy "PNG" "RGBA" out.
Proof.
  apply (@ensure_png_converts pil_toy pil_toy_codec "BMP").
  exists (mkToyImage (Some "BMP") "RGB" [x01; x02]), (mkToyImage None "RGBA" [x01; x02]).
  repeat split; reflexivity.
Defined.

Lemma ensure_png_input_or_rgba_png_witness :
  exists out,
    @ensure_png pil_toy not_an_image = Ret out /\
    (@decodable_as_mode pil_toy "PNG" "RGBA" out \/
     (out = not_an_image /\
      ((exists e, toy_open not_an_image = Raise e) \/
       (exists im e, toy_open not_an_image = Ret im /\ toy_convert im "RGBA" = Raise e)))).
Proof. exact (@ensure_png_input_or_rgba_png pil_toy pil_toy_codec not_an_image). Defined.

Lemma data_url_injective_witness : not_an_image = list_byte_of_string "not an image".
Proof. apply (data_url_injective not_an_image (list_byte_of_string "not an image")). reflexivity. Defined.
